(** * hostd: budgets over ephemeral accounts and contract sector-root updates

    A shallow embedding of [host/accounts/budget.go] (the [budget] methods
    [Remaining], [Empty], [Refund], [Spend], [Rollback] and [Commit]) and of
    the contract-update transaction exercised by [TestUpdateContractRoots],
    followed by the test's [rootsEqual] and by [Announce] and
    [validateNetAddress] of package [settings].

    Go pointers are replaced by explicit state passing: a method of
    [*budget] runs over a state holding the budget itself and the
    [AccountManager] its [am] field points to.  A Go [panic] is an outcome of
    its own, distinct from a returned [error]. *)

From Stdlib Require Import ZArith NArith String List Lia.
From stdpp Require Import gmap strings list fin_maps.

Local Open Scope Z_scope.

(** ** Outcomes of a Go call: a normal return or a panic *)

Inductive outcome (St A : Type) : Type :=
| Returned (a : A) (s : St)
| Panicked (msg : string) (s : St).
Arguments Returned {St A} a s.
Arguments Panicked {St A} msg s.

(** A method body: a state transformer that may panic. *)
Definition M (St A : Type) : Type := St -> outcome St A.

Definition ret {St A} (a : A) : M St A := fun s => Returned a s.

Definition bind {St A B} (m : M St A) (k : A -> M St B) : M St B :=
  fun s => match m s with
           | Returned a s' => k a s'
           | Panicked msg s' => Panicked msg s'
           end.

Definition get {St} : M St St := fun s => Returned s s.
Definition put {St} (s : St) : M St unit := fun _ => Returned tt s.
Definition panic {St A} (msg : string) : M St A := fun s => Panicked msg s.

Notation "x <- m ;; k" := (bind m (fun x => k))
  (at level 100, m at next level, right associativity).
Notation "m ;;; k" := (bind m (fun _ => k))
  (at level 100, right associativity).

Definition returned_value {St A} (o : outcome St A) : option A :=
  match o with Returned a _ => Some a | Panicked _ _ => None end.

Definition final_state {St A} (o : outcome St A) : St :=
  match o with Returned _ s => s | Panicked _ s => s end.

Definition panics {St A} (o : outcome St A) : bool :=
  match o with Returned _ _ => false | Panicked _ _ => true end.

(** ** Go [error] values *)

(** [errors.New] and [fmt.Errorf] with one [%w] verb; the [%v] arguments
    of the budget's messages are currency amounts. *)
Inductive error : Type :=
| errorsNew (msg : string)
| fmtErrorf (format : string) (args : list N) (wrapped : error).

#[global] Instance error_eq_dec : EqDecision error.
Proof. solve_decision. Defined.

(** [errors.Is]: walk the [%w] chain. *)
Fixpoint errorsIs (e target : error) : bool :=
  if decide (e = target) then true
  else match e with
       | errorsNew _ => false
       | fmtErrorf _ _ w => errorsIs w target
       end.

(** ** [types.Currency] of go.sia.tech/siad

    A non-negative big integer.  [Sub] on [x < y] keeps [x] and reports
    [build.Critical], which panics in a debug build and only logs in a
    release build; the build mode is the parameter [DEBUG]. *)
Module types.

Definition Currency : Type := N.
Definition ZeroCurrency : Currency := 0%N.

Definition Add (x y : Currency) : Currency := (x + y)%N.

Definition Cmp (x y : Currency) : Z :=
  match (x ?= y)%N with
  | Lt => -1
  | Eq => 0
  | Gt => 1
  end.

Definition ErrNegativeCurrency : string := "negative currency not allowed".

Definition Sub {St} (DEBUG : bool) (x y : Currency) : M St Currency :=
  if Cmp x y <? 0 then
    if DEBUG then panic ErrNegativeCurrency else ret x
  else ret (x - y)%N.

End types.

(** ** Go's [int] (64 bits, two's complement) *)

Definition int_wrap (z : Z) : Z := (z + 2 ^ 63) mod 2 ^ 64 - 2 ^ 63.
Definition int_dec (z : Z) : Z := int_wrap (z - 1).

(** ** Package accounts *)
Module accounts.
Import types.

Section Budget.

(** The build mode of the currency library. *)
Variable DEBUG : bool.

(** Account identifiers are opaque fixed-size keys. *)
Context {AccountID : Type} `{Countable AccountID}.

(** The durable ledger behind the manager: the interface [AccountStore],
    of which the budget only calls [Debit].  Go's
    [(types.Currency, error)] result is a pair with an optional error. *)
Class AccountStore (S : Type) : Type := {
  Debit : AccountID -> Currency -> S -> S * (Currency * option error)
}.

Context {S : Type} `{AccountStore S}.

(** Modelled from the spec: the struct [accountState] and the
    [AccountManager] are declared outside the files at hand; their fields
    are those [Rollback] and [Commit] use ([balance], [openTxns],
    [store], [balances]; the mutex [mu] has no sequential content), with
    [openTxns] a Go [int] counting the live budgets of the account. *)
Record accountState : Type := {
  balance : Currency;
  openTxns : Z
}.

Record AccountManager : Type := {
  store : S;
  balances : gmap AccountID accountState
}.

Record budget : Type := {
  accountID : AccountID;
  max : Currency;
  spent : Currency;
  committed : bool
}.

(** The state a [*budget] method runs over: the receiver and the manager
    behind its [am] pointer. *)
Record state : Type := {
  b : budget;
  am : AccountManager
}.

Definition set_spent (v : Currency) (x : budget) : budget :=
  {| accountID := accountID x; max := max x; spent := v;
     committed := committed x |}.

Definition set_b (x : budget) (s : state) : state :=
  {| b := x; am := am s |}.

Definition set_balances (m : gmap AccountID accountState) (s : state) : state :=
  {| b := b s; am := {| store := store (am s); balances := m |} |}.

Definition set_store (st : S) (s : state) : state :=
  {| b := b s; am := {| store := st; balances := balances (am s) |} |}.

Definition ErrInsufficientBudget : error := errorsNew "insufficient budget".

(** [func (b *budget) Remaining() types.Currency] *)
Definition Remaining : M state Currency :=
  s <- get ;;
  Sub DEBUG (max (b s)) (spent (b s)).

(** [func (b *budget) Empty() (spent types.Currency)] *)
Definition Empty : M state Currency :=
  s <- get ;;
  if committed (b s) then panic "budget already committed"
  else
    let spent0 := spent (b s) in
    put (set_b (set_spent (max (b s)) (b s)) s) ;;;
    ret spent0.

(** [func (b *budget) Refund(amount types.Currency)] *)
Definition Refund (amount : Currency) : M state unit :=
  s <- get ;;
  if committed (b s) then panic "budget already committed"
  else if 0 <? Cmp amount (spent (b s)) then
    panic "cannot refund more than spent"
  else
    v <- Sub DEBUG (spent (b s)) amount ;;
    put (set_b (set_spent v (b s)) s).

(** [func (b *budget) Spend(amount types.Currency) error] *)
Definition Spend (amount : Currency) : M state (option error) :=
  s <- get ;;
  let spent' := Add (spent (b s)) amount in
  if Cmp (max (b s)) spent' <? 0 then
    r <- Sub DEBUG (max (b s)) (spent (b s)) ;;
    ret (Some (fmtErrorf "unable to spend %v, %v remaining: %w"
                 [amount; r] ErrInsufficientBudget))
  else
    put (set_b (set_spent spent' (b s)) s) ;;;
    ret None.

(** [func (b *budget) Rollback() error] *)
Definition Rollback : M state (option error) :=
  s <- get ;;
  if committed (b s) then ret None
  else
    match balances (am s) !! accountID (b s) with
    | None => panic "account missing from memory"
    | Some st =>
        let n := int_dec (openTxns st) in
        if n =? 0 then
          put (set_balances (delete (accountID (b s)) (balances (am s))) s) ;;;
          ret None
        else
          let st' := {| balance := Add (balance st) (max (b s));
                        openTxns := n |} in
          put (set_balances (<[accountID (b s) := st']> (balances (am s))) s) ;;;
          ret None
    end.

(** The call [b.am.store.Debit(b.accountID, b.spent)]. *)
Definition store_Debit (id : AccountID) (amount : Currency)
  : M state (Currency * option error) :=
  s <- get ;;
  let '(st', r) := Debit id amount (store (am s)) in
  put (set_store st' s) ;;;
  ret r.

(** [func (b *budget) Commit() error] *)
Definition Commit : M state (option error) :=
  s <- get ;;
  if committed (b s) then panic "budget already committed"
  else
    r <- store_Debit (accountID (b s)) (spent (b s)) ;;
    match snd r with
    | Some err => ret (Some (fmtErrorf "failed to debit account: %w" [] err))
    | None =>
        s <- get ;;
        rem <- Sub DEBUG (max (b s)) (spent (b s)) ;;
        put (set_b {| accountID := accountID (b s); max := ZeroCurrency;
                      spent := ZeroCurrency; committed := true |} s) ;;;
        s <- get ;;
        match balances (am s) !! accountID (b s) with
        | None => panic "account missing from memory"
        | Some st =>
            let n := int_dec (openTxns st) in
            if n =? 0 then
              put (set_balances (delete (accountID (b s)) (balances (am s))) s) ;;;
              ret None
            else
              d <- Sub DEBUG (max (b s)) rem ;;
              let st' := {| balance := Add (balance st) d; openTxns := n |} in
              put (set_balances (<[accountID (b s) := st']> (balances (am s))) s) ;;;
              ret None
        end
    end.

(** The data-model invariant of a budget: no more is spent than was
    reserved ([0 <= spent] holds by the type of [Currency]). *)
Definition budget_inv (x : budget) : Prop := (spent x <= max x)%N.

(** What [Commit] leaves of a budget once the debit has succeeded. *)
Definition zeroed (x : budget) : budget :=
  {| accountID := accountID x; max := ZeroCurrency; spent := ZeroCurrency;
     committed := true |}.

(** One call on the [Budget] interface. *)
Inductive op : Type :=
| OpRemaining
| OpEmpty
| OpRefund (amount : Currency)
| OpSpend (amount : Currency)
| OpRollback
| OpCommit.

(** The call with its result reduced to the returned [error], if any. *)
Definition call (o : op) : M state (option error) :=
  match o with
  | OpRemaining => Remaining ;;; ret None
  | OpEmpty => Empty ;;; ret None
  | OpRefund amount => Refund amount ;;; ret None
  | OpSpend amount => Spend amount
  | OpRollback => Rollback
  | OpCommit => Commit
  end.

(** A caller that goes on after every call, recovering from panics. *)
Fixpoint calls (os : list op) (s : state) : state :=
  match os with
  | [] => s
  | o :: rest => calls rest (final_state (call o s))
  end.

(** A sequence of [Spend] calls; the result is the sum of the amounts
    whose call returned [nil]. *)
Fixpoint Spends (amounts : list Currency) : M state Currency :=
  match amounts with
  | [] => ret 0%N
  | a :: rest =>
      err <- Spend a ;;
      total <- Spends rest ;;
      ret (match err with
           | None => Add a total
           | Some _ => total
           end)
  end.

(** [n] calls of [Rollback] in a row, all of which must return [nil]. *)
Fixpoint Rollbacks (n : nat) : M state bool :=
  match n with
  | O => ret true
  | Datatypes.S k =>
      err <- Rollback ;;
      ok <- Rollbacks k ;;
      ret (match err with None => ok | Some _ => false end)
  end.

End Budget.

(** An in-memory ledger implementing [AccountStore], on which the model is
    run on concrete inputs: [Debit] fails on an unknown account and on
    insufficient funds. *)
#[global] Instance memStore : @AccountStore N (gmap N Currency) := {
  Debit id amount m :=
    match m !! id with
    | None => (m, (ZeroCurrency, Some (errorsNew "account not found")))
    | Some bal =>
        if (amount <=? bal)%N
        then (<[id := (bal - amount)%N]> m, ((bal - amount)%N, None))
        else (m, (ZeroCurrency, Some (errorsNew "insufficient funds")))
    end
}.

(** A budget of account 1 over that ledger: the account holds 100 in the
    store and has 50 spendable in memory. *)
Definition demo_state (mx sp : Currency) (c : bool) (txns : Z)
  : @state N _ _ (gmap N Currency) :=
  {| b := {| accountID := 1%N; max := mx; spent := sp; committed := c |};
     am := {| store := {[ 1%N := 100%N ]};
              balances := {[ 1%N := {| balance := 50%N; openTxns := txns |} ]} |} |}.

End accounts.

(** ** Contract sector-root updates *)
Module contracts.

Section Store.

(** Contract identifiers ([ParentID]) and sector roots ([crypto.Hash])
    are opaque fixed-size values. *)
Context {ContractID : Type} `{Countable ContractID}.
Context {Hash : Type}.

(** The persisted state: every contract's ordered list of sector roots. *)
Abbreviation db := (gmap ContractID (list Hash)).

Definition ErrContractNotFound : error := errorsNew "contract not found".
Definition ErrIndexOutOfRange : error := errorsNew "index out of range".

(** What a call on the transaction handle does: it returns an error or
    changes the transaction's working copy of the lists. *)
Definition Tx : Type := db -> option error * db.

(** Modelled from the spec: the store's [AppendSector] is not among the
    files at hand.  It appends one root to the tail of the contract's list
    and always succeeds if the contract exists. *)
Definition AppendSector (id : ContractID) (root : Hash) : Tx :=
  fun w =>
    match w !! id with
    | None => (Some ErrContractNotFound, w)
    | Some l => (None, <[id := l ++ [root]]> w)
    end.

(** Exchange of the values at two positions of a list, both in range. *)
Definition swap (i j : nat) (l : list Hash) : list Hash :=
  match l !! i, l !! j with
  | Some a, Some c => <[j := a]> (<[i := c]> l)
  | _, _ => l
  end.

(** Modelled from the spec: the store's [SwapSectors] is not among the
    files at hand.  It exchanges the roots currently at positions [i] and
    [j], and fails if either index is at or beyond the list's length at
    validation time, that is in the state left by the operations issued
    before it in the same transaction. *)
Definition SwapSectors (id : ContractID) (i j : N) : Tx :=
  fun w =>
    match w !! id with
    | None => (Some ErrContractNotFound, w)
    | Some l =>
        let n := N.of_nat (length l) in
        if ((n <=? i) || (n <=? j))%N then (Some ErrIndexOutOfRange, w)
        else (None, <[id := swap (N.to_nat i) (N.to_nat j) l]> w)
    end.

(** Modelled from the spec: the store's [TrimSectors] is not among the
    files at hand.  It removes the last [n] roots and fails if [n] exceeds
    the current length. *)
Definition TrimSectors (id : ContractID) (n : N) : Tx :=
  fun w =>
    match w !! id with
    | None => (Some ErrContractNotFound, w)
    | Some l =>
        if (N.of_nat (length l) <? n)%N then (Some ErrIndexOutOfRange, w)
        else (None, <[id := take (length l - N.to_nat n) l]> w)
    end.

(** Modelled from the spec: the store's read path [SectorRoots] is not
    among the files at hand.  It returns the ordered sub-sequence starting
    at [offset] for up to [limit] entries; a request beyond the end
    returns whatever remains. *)
Definition SectorRoots (id : ContractID) (offset limit : N) (d : db)
  : list Hash :=
  take (N.to_nat limit) (drop (N.to_nat offset) (default [] (d !! id))).

(** Modelled from the spec: the store's [RunUpdate] ([UpdateContracts] in
    the test) is not among the files at hand.  It invokes the callback
    inside one transaction; if the callback returns an error the
    transaction is aborted and the persisted lists stay as they were,
    otherwise everything the callback did is committed together. *)
Definition RunUpdate (fn : Tx) (d : db) : option error * db :=
  match fn d with
  | (None, w) => (None, w)
  | (Some err, _) => (Some err, d)
  end.

(** The operations a callback issues on the handle. *)
Inductive update : Type :=
| Append (id : ContractID) (root : Hash)
| Swap (id : ContractID) (i j : N)
| Trim (id : ContractID) (n : N).

Definition issue (u : update) : Tx :=
  match u with
  | Append id root => AppendSector id root
  | Swap id i j => SwapSectors id i j
  | Trim id n => TrimSectors id n
  end.

(** A callback in the style of the test: it issues its operations in
    order and returns the first error. *)
Fixpoint batch (us : list update) : Tx :=
  fun w =>
    match us with
    | [] => (None, w)
    | u :: rest =>
        match issue u w with
        | (None, w') => batch rest w'
        | (Some err, w') => (Some err, w')
        end
    end.

End Store.

(** The store of the test at the point of its last step: one contract,
    numbered 1, with seven roots left (roots are numbered by the order in
    which the test appended them, positions 5 and 8 exchanged, the last
    three trimmed). *)
Definition test_db : gmap N (list N) :=
  {[ 1%N := [0; 1; 2; 3; 4; 8; 6]%N ]}.

End contracts.

(** A budget like that of [accounts.demo_state] with 3 of 10 spent, whose
    account is no longer in the manager's table. *)
Definition orphan_state : @accounts.state N _ _ (gmap N types.Currency) :=
  {| accounts.b :=
       {| accounts.accountID := 1%N; accounts.max := 10%N;
          accounts.spent := 3%N; accounts.committed := false |};
     accounts.am :=
       {| accounts.store := {[ 1%N := 100%N ]}; accounts.balances := ∅ |} |}.

(** ** The test's comparison of two lists of roots *)
Module sqlite_test.

Section RootsEqual.

(** [crypto.Hash] is a fixed-size array, compared with [!=]. *)
Context {Hash : Type} `{EqDecision Hash}.

(** The two errors of [rootsEqual]: [errors.New("length mismatch")] and
    [fmt.Errorf("root %v mismatch: expected %v, got %v", i, a[i], b[i])]. *)
Inductive mismatch : Type :=
| LengthMismatch
| RootMismatch (i : nat) (expected got : Hash).

(** How a call ends: with [nil], with an error, or in the run-time panic
    of an index out of range. *)
Inductive verdict : Type :=
| Nil
| Err (e : mismatch)
| IndexOutOfRange.

(** The loop [for i := range a] from index [i] on, with [n] indices left. *)
Fixpoint rootsEqual_from (n i : nat) (a c : list Hash) : verdict :=
  match n with
  | O => Nil
  | Datatypes.S n' =>
      match a !! i, c !! i with
      | Some x, Some y =>
          if decide (x = y) then rootsEqual_from n' (Datatypes.S i) a c
          else Err (RootMismatch i x y)
      | _, _ => IndexOutOfRange
      end
  end.

(** [func rootsEqual(a, b []crypto.Hash) error] *)
Definition rootsEqual (a c : list Hash) : verdict :=
  if decide (length a = length c) then rootsEqual_from (length a) 0 a c
  else Err LengthMismatch.

End RootsEqual.
End sqlite_test.

(** ** Package settings: announcing the host *)
Module settings.

(** Go errors whose messages carry strings: [errors.New], and
    [fmt.Errorf] with one [%w] verb and string arguments. *)
Inductive err : Type :=
| errNew (msg : string)
| errWrap (format : string) (args : list string) (wrapped : err).

(** What [validateNetAddress] uses of Go's standard library:
    [net.SplitHostPort], [strconv.Atoi], [net.ParseIP] ([None] for its
    [nil]) and three methods of [net.IP]. *)
Class NetLib (IP : Type) : Type := {
  SplitHostPort : string -> (string * string) + err;
  Atoi : string -> Z + err;
  ParseIP : string -> option IP;
  IsLoopback : IP -> bool;
  IsPrivate : IP -> bool;
  IsGlobalUnicast : IP -> bool
}.

Section NetAddress.

Context {IP : Type} `{NetLib IP}.

(** [func validateNetAddress(netaddress string) error] *)
Definition validateNetAddress (netaddress : string) : option err :=
  match SplitHostPort netaddress with
  | inr e => Some (errWrap "failed to split net address: %w" [] e)
  | inl (host, port) =>
      if decide (host = EmptyString) then Some (errNew "empty net address")
      else if decide (host = "localhost") then
        Some (errNew "net address cannot be localhost")
      else
        match Atoi port with
        | inr e => Some (errWrap "failed to parse port: %w" [] e)
        | inl n =>
            if (n <? 1) || (65535 <? n) then
              Some (errNew "port must be between 1 and 65535")
            else
              match ParseIP host with
              | Some ip =>
                  if IsLoopback ip || IsPrivate ip || negb (IsGlobalUnicast ip)
                  then Some (errNew "only public IP addresses allowed")
                  else None
              | None => None
              end
        end
  end.

End NetAddress.

(** [Currency.Mul64] of go.sia.tech/core: a 128-bit amount times a 64-bit
    factor, panicking on overflow. *)
Definition Mul64 {St} (c v : N) : M St N :=
  if (2 ^ 128 <=? c * v)%N then panic "overflow" else ret (c * v)%N.

Section Announce.

(** The values the announcement is made of are opaque here: byte strings,
    attestations, keys, block identifiers, the signature hashes of a
    transaction, and the parts of a transaction the wallet fills in. *)
Context {Bytes Attestation PrivateKey PublicKey BlockID Hash256 : Type}.
Context {Body V2Body : Type}.

(** [types.ChainIndex] and the fields of [consensus.State] that are read. *)
Record ChainIndex : Type := {
  Height : N;
  ID : BlockID
}.

Record State : Type := {
  Index : ChainIndex;
  HardforkV2_AllowHeight : N
}.

(** [types.Transaction] and [types.V2Transaction]: the fields [Announce]
    sets, and the rest. *)
Record Transaction : Type := {
  ArbitraryData : list Bytes;
  MinerFees : list N;
  body : Body
}.

Record V2Transaction : Type := {
  Attestations : list Attestation;
  MinerFee : N;
  v2body : V2Body
}.

(** The calls [Announce] makes that change something outside it. *)
Inductive event : Type :=
| FundTransactionCall (txn : Transaction) (amount : N) (useUnconfirmed : bool)
| SignTransactionCall (txn : Transaction) (toSign : list Hash256)
    (signed : Transaction)
| AddPoolTransactionsCall (txnset : list Transaction)
| BroadcastTransactionSetCall (txnset : list Transaction)
| FundV2TransactionCall (txn : V2Transaction) (amount : N)
    (useUnconfirmed : bool)
| SignV2InputsCall (txn : V2Transaction) (toSign : list Z)
    (signed : V2Transaction)
| AddV2PoolTransactionsCall (basis : ChainIndex) (txnset : list V2Transaction)
| BroadcastV2TransactionSetCall (index : ChainIndex)
    (txnset : list V2Transaction)
| ReleaseInputsCall (txns : list Transaction) (v2txns : list V2Transaction)
| LogDebugCall (msg : string).

(** The chain manager, the wallet and the syncer behind the
    [ConfigManager], over their joint state [W].  A call through a pointer
    to a transaction returns the transaction as the callee left it. *)
Class Collaborators (W : Type) : Type := {
  RecommendedFee : W -> N;
  TipState : W -> State;
  UnconfirmedParents : Transaction -> W -> list Transaction;
  AddPoolTransactions : list Transaction -> W -> W * option err;
  V2TransactionSet :
    ChainIndex -> V2Transaction -> W ->
    (ChainIndex * list V2Transaction) + err;
  AddV2PoolTransactions :
    ChainIndex -> list V2Transaction -> W -> W * option err;
  FundTransaction :
    Transaction -> N -> bool -> W ->
    W * ((Transaction * list Hash256) + err);
  SignTransaction : Transaction -> list Hash256 -> W -> W * Transaction;
  FundV2Transaction :
    V2Transaction -> N -> bool -> W ->
    W * ((V2Transaction * ChainIndex * list Z) + err);
  SignV2Inputs : V2Transaction -> list Z -> W -> W * V2Transaction;
  ReleaseInputs : list Transaction -> list V2Transaction -> W -> W;
  BroadcastTransactionSet : list Transaction -> W -> W;
  BroadcastV2TransactionSet : ChainIndex -> list V2Transaction -> W -> W;
  PublicKeyOf : PrivateKey -> PublicKey;
  ToArbitraryData : PublicKey -> string -> PrivateKey -> Bytes;
  ToAttestation : State -> string -> PrivateKey -> Attestation;
  emptyBody : Body;
  emptyV2Body : V2Body
}.

Context {IP : Type} `{NetLib IP}.
Context {W : Type} `{Collaborators W}.

(** The constant [announcementTxnSize] is declared outside the files at
    hand. *)
Variable announcementTxnSize : N.

(** The fields of the [ConfigManager] that [Announce] reads; [NetAddress]
    stands for [m.Settings().NetAddress]. *)
Record ConfigManager : Type := {
  validateNetAddressFlag : bool;
  hostKey : PrivateKey;
  NetAddress : string
}.

(** The outside world and the calls made on it so far, oldest first. *)
Record run : Type := {
  world : W;
  trace : list event
}.

(** A call that changes the world and returns a result. *)
Definition act {A} (f : W -> W * A) (ev : A -> event) : M run A :=
  fun r =>
    let '(w, a) := f (world r) in
    Returned a {| world := w; trace := trace r ++ [ev a] |}.

(** A call that only changes the world. *)
Definition act_ (f : W -> W) (ev : event) : M run unit :=
  fun r => Returned tt {| world := f (world r); trace := trace r ++ [ev] |}.

(** [func (m *ConfigManager) Announce() error] *)
Definition Announce (m : ConfigManager) : M run (option err) :=
  let addr := NetAddress m in
  match (if validateNetAddressFlag m then validateNetAddress addr else None) with
  | Some e =>
      ret (Some (errWrap "failed to validate net address %q: %w" [addr] e))
  | None =>
      r0 <- get ;;
      minerFee <- Mul64 (RecommendedFee (world r0)) announcementTxnSize ;;
      let cs := TipState (world r0) in
      if (Height (Index cs) <? HardforkV2_AllowHeight cs)%N then
        let txn :=
          {| ArbitraryData :=
               [ToArbitraryData (PublicKeyOf (hostKey m)) addr (hostKey m)];
             MinerFees := [minerFee];
             body := emptyBody |} in
        funded <- act (FundTransaction txn minerFee true)
                    (fun _ => FundTransactionCall txn minerFee true) ;;
        match funded with
        | inr e => ret (Some (errWrap "failed to fund transaction: %w" [] e))
        | inl (txn, toSign) =>
            txn <- act (SignTransaction txn toSign)
                     (fun signed => SignTransactionCall txn toSign signed) ;;
            r1 <- get ;;
            let txnset := UnconfirmedParents txn (world r1) ++ [txn] in
            added <- act (AddPoolTransactions txnset)
                       (fun _ => AddPoolTransactionsCall txnset) ;;
            match added with
            | Some e =>
                act_ (ReleaseInputs [txn] []) (ReleaseInputsCall [txn] []) ;;;
                ret (Some (errWrap "failed to add transaction to pool: %w" [] e))
            | None =>
                act_ (BroadcastTransactionSet txnset)
                  (BroadcastTransactionSetCall txnset) ;;;
                act_ (fun w => w) (LogDebugCall "broadcast announcement") ;;;
                ret None
            end
        end
      else
        let txn :=
          {| Attestations := [ToAttestation cs addr (hostKey m)];
             MinerFee := minerFee;
             v2body := emptyV2Body |} in
        funded <- act (FundV2Transaction txn minerFee true)
                    (fun _ => FundV2TransactionCall txn minerFee true) ;;
        match funded with
        | inr e => ret (Some (errWrap "failed to fund transaction: %w" [] e))
        | inl (txn, basis, toSign) =>
            txn <- act (SignV2Inputs txn toSign)
                     (fun signed => SignV2InputsCall txn toSign signed) ;;
            r1 <- get ;;
            match V2TransactionSet basis txn (world r1) with
            | inr e =>
                act_ (ReleaseInputs [] [txn]) (ReleaseInputsCall [] [txn]) ;;;
                ret (Some (errWrap "failed to create transaction set: %w" [] e))
            | inl (basis, txnset) =>
                added <- act (AddV2PoolTransactions basis txnset)
                           (fun _ => AddV2PoolTransactionsCall basis txnset) ;;
                match added with
                | Some e =>
                    act_ (ReleaseInputs [] [txn]) (ReleaseInputsCall [] [txn]) ;;;
                    ret (Some
                           (errWrap "failed to add transaction to pool: %w" [] e))
                | None =>
                    act_ (BroadcastV2TransactionSet (Index cs) txnset)
                      (BroadcastV2TransactionSetCall (Index cs) txnset) ;;;
                    act_ (fun w => w)
                      (LogDebugCall "broadcast v2 announcement") ;;;
                    ret None
                end
            end
        end
  end.

(** Counting the calls of a kind in a trace. *)
Definition is_broadcast (e : event) : bool :=
  match e with
  | BroadcastTransactionSetCall _ | BroadcastV2TransactionSetCall _ _ => true
  | _ => false
  end.

Definition is_release (e : event) : bool :=
  match e with ReleaseInputsCall _ _ => true | _ => false end.

Definition is_sign (e : event) : bool :=
  match e with
  | SignTransactionCall _ _ _ | SignV2InputsCall _ _ _ => true
  | _ => false
  end.

Definition is_fund (e : event) : bool :=
  match e with
  | FundTransactionCall _ _ _ | FundV2TransactionCall _ _ _ => true
  | _ => false
  end.

Definition is_v2 (e : event) : bool :=
  match e with
  | FundV2TransactionCall _ _ _ | SignV2InputsCall _ _ _
  | AddV2PoolTransactionsCall _ _ | BroadcastV2TransactionSetCall _ _
  | ReleaseInputsCall [] _ => true
  | LogDebugCall msg => String.eqb msg "broadcast v2 announcement"
  | _ => false
  end.

Fixpoint count (p : event -> bool) (tr : list event) : nat :=
  match tr with
  | [] => O
  | e :: rest => ((if p e then 1 else 0) + count p rest)%nat
  end.

(** Whether a call of [Announce] ended by returning [nil]. *)
Definition announced (o : outcome run (option err)) : bool :=
  match o with
  | Returned None _ => true
  | _ => false
  end.

End Announce.

(** The answers of Go's standard library on the two addresses of the
    examples below, [foo.bar:1234] and [localhost:9982]; every other
    address is taken to lack a port, every other port to be no number, and
    no host to be an IP address. *)
#[global] Instance demoNet : NetLib unit := {
  SplitHostPort s :=
    if String.eqb s "foo.bar:1234" then inl ("foo.bar", "1234")
    else if String.eqb s "localhost:9982" then inl ("localhost", "9982")
    else inr (errNew "missing port in address");
  Atoi s :=
    if String.eqb s "1234" then inl 1234%Z
    else if String.eqb s "9982" then inl 9982%Z
    else inr (errNew "invalid syntax");
  ParseIP _ := None;
  IsLoopback _ := false;
  IsPrivate _ := false;
  IsGlobalUnicast _ := true
}.

(** A small world to run [Announce] in: the height of the tip, and whether
    the transaction pool turns everything down. *)
Record demoWorld : Type := {
  tip : N;
  poolFull : bool
}.

(** Collaborators over that world: a fee of 10, version 2 allowed from
    height 100, a wallet that funds and signs without changing the
    transaction, and a pool that accepts unless it is full. *)
#[global] Instance demoCollaborators :
  Collaborators (Bytes := string) (Attestation := string)
    (PrivateKey := unit) (PublicKey := unit) (BlockID := unit)
    (Hash256 := unit) (Body := unit) (V2Body := unit) demoWorld := {
  RecommendedFee _ := 10%N;
  TipState w :=
    {| Index := {| Height := tip w; ID := tt |};
       HardforkV2_AllowHeight := 100%N |};
  UnconfirmedParents _ _ := [];
  AddPoolTransactions _ w :=
    (w, if poolFull w then Some (errNew "pool full") else None);
  V2TransactionSet basis txn _ := inl (basis, [txn]);
  AddV2PoolTransactions _ _ w :=
    (w, if poolFull w then Some (errNew "pool full") else None);
  FundTransaction txn _ _ w := (w, inl (txn, [tt]));
  SignTransaction txn _ w := (w, txn);
  FundV2Transaction txn _ _ w :=
    (w, inl (txn, {| Height := tip w; ID := tt |}, [0%Z]));
  SignV2Inputs txn _ w := (w, txn);
  ReleaseInputs _ _ w := w;
  BroadcastTransactionSet _ w := w;
  BroadcastV2TransactionSet _ _ w := w;
  PublicKeyOf k := k;
  ToArbitraryData _ addr _ := addr;
  ToAttestation _ addr _ := addr;
  emptyBody := tt;
  emptyV2Body := tt
}.

(** A manager that validates its address, set to the address given. *)
Definition demo_manager (addr : string) : @ConfigManager unit :=
  {| validateNetAddressFlag := true; hostKey := tt; NetAddress := addr |}.

(** The run that starts in a world with nothing called yet. *)
Definition demo_run (height : N) (full : bool)
  : @run string string unit unit unit unit demoWorld :=
  {| world := {| tip := height; poolFull := full |}; trace := [] |}.

(** The version 1 announcement of [foo.bar:1234] at a fee of 10 on a size
    of 1000, as the wallet of [demoCollaborators] leaves it. *)
Definition demo_txn : @Transaction string unit :=
  {| ArbitraryData := ["foo.bar:1234"];
     MinerFees := [10000%N];
     body := tt |}.

End settings.


(** * Properties of the currency operations and of Go's [int] *)

Section CurrencyFacts.
Import types.

Lemma Cmp_lt (x y : Currency) : (Cmp x y <? 0) = (x <? y)%N.
Proof. unfold Cmp, N.ltb. destruct (x ?= y)%N; reflexivity. Qed.

Lemma Cmp_gt (x y : Currency) : (0 <? Cmp x y) = (y <? x)%N.
Proof.
  unfold Cmp, N.ltb. rewrite (N.compare_antisym x y).
  destruct (x ?= y)%N; reflexivity.
Qed.

Lemma Sub_le {St} (DEBUG : bool) (x y : Currency) (s : St) :
  (y <= x)%N -> Sub DEBUG x y s = Returned (x - y)%N s.
Proof.
  intros Hle. unfold Sub. rewrite Cmp_lt.
  destruct (N.ltb_spec x y); [lia | reflexivity].
Qed.

Lemma int_dec_in_range (z : Z) :
  - 2 ^ 63 < z <= 2 ^ 63 -> int_dec z = z - 1.
Proof.
  intros Hz. unfold int_dec, int_wrap.
  rewrite Z.mod_small; lia.
Qed.

Lemma errorsIs_refl (e : error) : errorsIs e e = true.
Proof. destruct e; simpl; case_decide; congruence. Qed.

Lemma errorsIs_wrap (f : string) (args : list N) (e target : error) :
  errorsIs e target = true -> errorsIs (fmtErrorf f args e) target = true.
Proof. intros He. simpl. case_decide; [reflexivity | exact He]. Qed.

End CurrencyFacts.

(** * Properties of budgets *)

Section BudgetFacts.
Import types accounts.

Context {AccountID : Type} `{Countable AccountID}.
Context {S : Type} `{!AccountStore (AccountID := AccountID) S}.

Local Abbreviation state := (@accounts.state AccountID _ _ S).

(** Unfolds a method down to the monad's primitives. *)
Ltac run :=
  unfold call, Commit, Rollback, Spend, Refund, Empty, Remaining, store_Debit,
    bind, get, put, ret, panic in *; cbn [b am store balances max spent
    committed accountID set_b set_spent set_balances set_store fst snd] in *.

(** [Spend] written out: under the invariant it never panics. *)
Lemma Spend_eq (DEBUG : bool) (s : state) (amount : Currency) :
  budget_inv (b s) ->
  Spend DEBUG amount s =
    if (max (b s) <? spent (b s) + amount)%N
    then Returned
           (Some (fmtErrorf "unable to spend %v, %v remaining: %w"
                    [amount; (max (b s) - spent (b s))%N] ErrInsufficientBudget))
           s
    else Returned None
           (set_b (set_spent (spent (b s) + amount)%N (b s)) s).
Proof.
  intros Hinv. unfold Spend, bind, get. rewrite Cmp_lt. unfold Add.
  destruct (max (b s) <? spent (b s) + amount)%N; [ | reflexivity ].
  rewrite (Sub_le DEBUG _ _ s Hinv). reflexivity.
Qed.

(** [Remaining] under the invariant. *)
Lemma Remaining_eq (DEBUG : bool) (s : state) :
  budget_inv (b s) ->
  Remaining DEBUG s = Returned (max (b s) - spent (b s))%N s.
Proof. intros Hinv. unfold Remaining, bind, get. apply Sub_le, Hinv. Qed.

(** A run of [Spend] calls keeps [max], keeps the manager, and adds to
    [spent] the sum of the amounts that were accepted. *)
Lemma Spends_eq (DEBUG : bool) (amounts : list Currency) :
  forall s : state,
    budget_inv (b s) ->
    exists total s',
      Spends DEBUG amounts s = Returned total s'
      /\ max (b s') = max (b s)
      /\ spent (b s') = (spent (b s) + total)%N
      /\ budget_inv (b s')
      /\ am s' = am s.
Proof.
  induction amounts as [ | a rest IH]; intros s Hinv.
  - exists 0%N, s. cbn. rewrite N.add_0_r. auto.
  - cbn [Spends]. unfold bind at 1. rewrite (Spend_eq DEBUG s a Hinv).
    destruct (N.ltb_spec (max (b s)) (spent (b s) + a)) as [Hlt | Hge].
    + destruct (IH s Hinv) as (total & s' & Hrun & Hmax & Hspent & Hinv' & Ham).
      exists total, s'. unfold bind. rewrite Hrun. auto.
    + set (s1 := set_b (set_spent (spent (b s) + a)%N (b s)) s).
      assert (Hinv1 : budget_inv (b s1)) by exact Hge.
      destruct (IH s1 Hinv1) as (total & s' & Hrun & Hmax & Hspent & Hinv' & Ham).
      exists (Add a total), s'. unfold bind. rewrite Hrun.
      repeat split; auto.
      rewrite Hspent. unfold Add. cbn. lia.
Qed.

(** C6: [Spend] fails with [ErrInsufficientBudget], changing nothing,
    exactly when [spent + amount > max]; otherwise it returns [nil] and sets
    [spent] to [spent + amount].  Hence after any run of [Spend] calls
    [Remaining] is [max] less what was spent before and the sum of the
    amounts accepted since. *)
Theorem Spend_insufficient_iff (DEBUG : bool) (s : state) (amount : Currency) :
  budget_inv (b s) ->
  ((max (b s) < spent (b s) + amount)%N ->
     exists e, Spend DEBUG amount s = Returned (Some e) s
               /\ errorsIs e ErrInsufficientBudget = true)
  /\ ((spent (b s) + amount <= max (b s))%N ->
        Spend DEBUG amount s =
          Returned None (set_b (set_spent (spent (b s) + amount)%N (b s)) s))
  /\ (forall amounts, exists total s',
        Spends DEBUG amounts s = Returned total s'
        /\ Remaining DEBUG s' =
             Returned (max (b s) - (spent (b s) + total))%N s').
Proof.
  intros Hinv. repeat split.
  - intros Hlt. rewrite (Spend_eq DEBUG s amount Hinv).
    destruct (N.ltb_spec (max (b s)) (spent (b s) + amount)); [ | lia ].
    eexists. split; [reflexivity | ].
    apply errorsIs_wrap, errorsIs_refl.
  - intros Hle. rewrite (Spend_eq DEBUG s amount Hinv).
    destruct (N.ltb_spec (max (b s)) (spent (b s) + amount)); [lia | reflexivity].
  - intros amounts.
    destruct (Spends_eq DEBUG amounts s Hinv)
      as (total & s' & Hrun & Hmax & Hspent & Hinv' & _).
    exists total, s'. split; [exact Hrun | ].
    rewrite (Remaining_eq DEBUG s' Hinv'), Hmax, Hspent. reflexivity.
Qed.

(** C2, as the code has it: on an uncommitted budget [Empty] sets [spent]
    to [max] and returns the value [spent] held before the call. *)
Theorem Empty_returns_old_spent (s : state) :
  committed (b s) = false ->
  Empty s = Returned (spent (b s)) (set_b (set_spent (max (b s)) (b s)) s).
Proof. intros Hc. run. rewrite Hc. reflexivity. Qed.

(** C3, as the code has it: on a committed budget [Refund], [Empty] and
    [Commit] panic, while [Spend], which does not look at the flag, returns
    as on any budget: an [ErrInsufficientBudget] error or [nil]. *)
Theorem committed_budget_calls (DEBUG : bool) (s : state) (amount : Currency) :
  committed (b s) = true ->
  budget_inv (b s) ->
  Refund DEBUG amount s = Panicked "budget already committed" s
  /\ Empty s = Panicked "budget already committed" s
  /\ Commit DEBUG s = Panicked "budget already committed" s
  /\ panics (Spend DEBUG amount s) = false
  /\ (exists r, returned_value (Spend DEBUG amount s) = Some r
                /\ match r with
                   | Some e => errorsIs e ErrInsufficientBudget = true
                               /\ (max (b s) < spent (b s) + amount)%N
                   | None => (spent (b s) + amount <= max (b s))%N
                   end).
Proof.
  intros Hc Hinv. rewrite (Spend_eq DEBUG s amount Hinv).
  repeat split; try (run; rewrite Hc; reflexivity).
  - destruct (max (b s) <? spent (b s) + amount)%N; reflexivity.
  - destruct (N.ltb_spec (max (b s)) (spent (b s) + amount)) as [Hlt | Hge];
      eexists; (split; [reflexivity | ]); cbn; auto.
Qed.

(** C5: on an uncommitted budget whose account is in the table, [Rollback]
    returns [nil] and decrements [openTxns]; if that reaches zero the entry
    is removed, otherwise the entry gets back exactly [max], whatever was
    spent.  The decrement is Go's, which is [openTxns - 1] on every count
    that is not the least [int]. *)
Theorem Rollback_restores_max (s : state) (st : accountState) :
  committed (b s) = false ->
  balances (am s) !! accountID (b s) = Some st ->
  Rollback s =
    Returned None
      (set_balances
         (if int_dec (openTxns st) =? 0
          then delete (accountID (b s)) (balances (am s))
          else <[accountID (b s) :=
                   {| balance := (balance st + max (b s))%N;
                      openTxns := int_dec (openTxns st) |}]> (balances (am s)))
         s)
  /\ (- 2 ^ 63 < openTxns st <= 2 ^ 63 ->
      int_dec (openTxns st) = openTxns st - 1).
Proof.
  intros Hc Hst. split; [ | apply int_dec_in_range ].
  run. rewrite Hc, Hst.
  destruct (int_dec (openTxns st) =? 0); reflexivity.
Qed.

(** C7: when the [Debit] inside [Commit] returns an error, [Commit] returns
    that error wrapped, and the budget and the table of balances (with every
    [openTxns]) are as before the call. *)
Theorem Commit_debit_error (DEBUG : bool) (s : state)
    (st' : S) (cur : Currency) (err : error) :
  committed (b s) = false ->
  Debit (accountID (b s)) (spent (b s)) (store (am s)) = (st', (cur, Some err)) ->
  exists e s',
    Commit DEBUG s = Returned (Some e) s'
    /\ errorsIs e err = true
    /\ b s' = b s
    /\ balances (am s') = balances (am s).
Proof.
  intros Hc Hdebit.
  exists (fmtErrorf "failed to debit account: %w" [] err), (set_store st' s).
  split; [ | split; [apply errorsIs_wrap, errorsIs_refl | split; reflexivity ] ].
  run. rewrite Hc, Hdebit. reflexivity.
Qed.

(** C8: on a committed budget [Rollback] returns [nil] and changes
    nothing, however often it is called. *)
Theorem Rollback_after_commit_noop (s : state) (n : nat) :
  committed (b s) = true ->
  Rollback s = Returned None s
  /\ Rollbacks n s = Returned true s.
Proof.
  intros Hc.
  assert (Hone : Rollback s = Returned None s) by (run; rewrite Hc; reflexivity).
  split; [exact Hone | ].
  induction n as [ | k IH]; [reflexivity | ].
  cbn [Rollbacks]. unfold bind. rewrite Hone, IH. reflexivity.
Qed.

(** [Commit] returns [nil] only with the budget zeroed and flagged. *)
Lemma Commit_returns_nil (DEBUG : bool) (s s' : state) :
  Commit DEBUG s = Returned None s' ->
  b s' = zeroed (b s).
Proof.
  run. unfold Sub, ret, panic.
  destruct (committed (b s)); [discriminate | ].
  destruct (Debit _ _ _) as [st1 [cur [err | ]]]; cbn; [discriminate | ].
  repeat case_match; intros; simplify_eq; reflexivity.
Qed.

Lemma Commit_final_inv (DEBUG : bool) (s : state) :
  budget_inv (b s) -> budget_inv (b (final_state (Commit DEBUG s))).
Proof.
  intros Hinv. run. unfold Sub, ret, panic.
  destruct (committed (b s)); [exact Hinv | ].
  destruct (Debit _ _ _) as [st1 [cur [err | ]]]; cbn; [exact Hinv | ].
  repeat case_match; simplify_eq; unfold budget_inv in *; cbn; lia.
Qed.

(** Whatever a call does, returning or panicking, it leaves a budget
    that satisfies the invariant. *)
Lemma call_final_inv (DEBUG : bool) (o : op) (s : state) :
  budget_inv (b s) -> budget_inv (b (final_state (call DEBUG o s))).
Proof.
  intros Hinv. destruct o as [ | | amount | amount | | ]; cbn [call].
  - unfold bind. rewrite (Remaining_eq DEBUG s Hinv). exact Hinv.
  - run. destruct (committed (b s)); [exact Hinv | ].
    unfold budget_inv; cbn. lia.
  - run. unfold Sub, ret, panic. rewrite Cmp_gt, Cmp_lt.
    destruct (committed (b s)); [exact Hinv | ].
    destruct (N.ltb_spec (spent (b s)) amount); [exact Hinv | ].
    destruct (N.ltb_spec (spent (b s)) amount); [lia | ].
    unfold budget_inv in *; cbn. lia.
  - rewrite (Spend_eq DEBUG s amount Hinv).
    destruct (N.ltb_spec (max (b s)) (spent (b s) + amount)); [exact Hinv | ].
    unfold budget_inv; cbn. lia.
  - run. repeat case_match; exact Hinv.
  - apply Commit_final_inv, Hinv.
Qed.

(** Nothing moves a budget that [Commit] has zeroed and flagged. *)
Lemma zeroed_final (DEBUG : bool) (o : op) (s : state) :
  b s = zeroed (b s) -> b (final_state (call DEBUG o s)) = b s.
Proof.
  intros Hz.
  assert (Hc : committed (b s) = true) by (rewrite Hz; reflexivity).
  assert (Hm : max (b s) = 0%N) by (rewrite Hz; reflexivity).
  assert (Hs : spent (b s) = 0%N) by (rewrite Hz; reflexivity).
  assert (Hinv : budget_inv (b s)) by (unfold budget_inv; lia).
  destruct o as [ | | amount | amount | | ]; cbn [call].
  - unfold bind. rewrite (Remaining_eq DEBUG s Hinv). reflexivity.
  - run. rewrite Hc. reflexivity.
  - run. rewrite Hc. reflexivity.
  - rewrite (Spend_eq DEBUG s amount Hinv), Hm, Hs.
    destruct (N.ltb_spec 0 (0 + amount)); [reflexivity | ].
    cbn. rewrite Hz. unfold set_spent, zeroed; cbn. f_equal.
    unfold ZeroCurrency. lia.
  - run. rewrite Hc. reflexivity.
  - run. rewrite Hc. reflexivity.
Qed.

Lemma zeroed_calls (DEBUG : bool) (os : list op) :
  forall s : state, b s = zeroed (b s) -> b (calls DEBUG os s) = b s.
Proof.
  induction os as [ | o rest IH]; intros s Hz; [reflexivity | ].
  cbn [calls]. pose proof (zeroed_final DEBUG o s Hz) as Hstep.
  rewrite IH; [exact Hstep | ]. rewrite Hstep. exact Hz.
Qed.

(** C9: a call leaves [spent <= max] if it found it so; [Spend] returns
    [nil] only when the new [spent] is within [max], [Refund] returns only
    when the amount is within [spent], [Empty] leaves [spent = max], and a
    successful [Commit] leaves both fields zero. *)
Theorem budget_inv_preserved (DEBUG : bool) (s : state) :
  budget_inv (b s) ->
  (forall o, budget_inv (b (final_state (call DEBUG o s))))
  /\ (forall amount s',
        Spend DEBUG amount s = Returned None s' ->
        (spent (b s) + amount <= max (b s))%N
        /\ spent (b s') = (spent (b s) + amount)%N
        /\ max (b s') = max (b s))
  /\ (forall amount s',
        Refund DEBUG amount s = Returned tt s' ->
        (amount <= spent (b s))%N
        /\ spent (b s') = (spent (b s) - amount)%N
        /\ max (b s') = max (b s))
  /\ (forall r s', Empty s = Returned r s' -> spent (b s') = max (b s'))
  /\ (forall s',
        Commit DEBUG s = Returned None s' ->
        max (b s') = ZeroCurrency /\ spent (b s') = ZeroCurrency).
Proof.
  intros Hinv. split; [ | split; [ | split; [ | split ] ] ].
  - intros o. apply call_final_inv, Hinv.
  - intros amount s'. rewrite (Spend_eq DEBUG s amount Hinv).
    destruct (N.ltb_spec (max (b s)) (spent (b s) + amount));
      intros Heq; simplify_eq. cbn. auto.
  - intros amount s'. run. unfold Sub, ret, panic. rewrite Cmp_gt, Cmp_lt.
    destruct (committed (b s)); [discriminate | ].
    destruct (N.ltb_spec (spent (b s)) amount); [discriminate | ].
    destruct (N.ltb_spec (spent (b s)) amount); [lia | ].
    intros Heq; simplify_eq. cbn. auto.
  - intros r s'. run. destruct (committed (b s)); [discriminate | ].
    intros Heq; simplify_eq. reflexivity.
  - intros s' Hrun. rewrite (Commit_returns_nil DEBUG s s' Hrun). auto.
Qed.

(** C10: once [Commit] has returned [nil], [Remaining] returns zero, and
    keeps doing so after any further calls on the budget. *)
Theorem Remaining_zero_after_Commit (DEBUG : bool) (s s' : state) (os : list op) :
  Commit DEBUG s = Returned None s' ->
  Remaining DEBUG (calls DEBUG os s') =
    Returned ZeroCurrency (calls DEBUG os s').
Proof.
  intros Hrun. pose proof (Commit_returns_nil DEBUG s s' Hrun) as Hb.
  assert (Hz : b s' = zeroed (b s')) by (rewrite Hb; reflexivity).
  pose proof (zeroed_calls DEBUG os s' Hz) as Hstay.
  unfold Remaining, bind, get. rewrite Hstay, Hb.
  cbn [zeroed max spent]. apply (Sub_le DEBUG ZeroCurrency ZeroCurrency). lia.
Qed.


(** [Commit] computes what it gives back as [b.max.Sub(rem)] after it has
    zeroed [b.max]: whenever it returns [nil] and the entry stays in the
    table, the spendable balance is what it was. *)
Lemma Commit_keeps_balance (DEBUG : bool) (s s' : state) (st : accountState) :
  balances (am s) !! accountID (b s) = Some st ->
  int_dec (openTxns st) <> 0 ->
  Commit DEBUG s = Returned None s' ->
  balances (am s') !! accountID (b s) =
    Some {| balance := balance st; openTxns := int_dec (openTxns st) |}.
Proof.
  intros Hst Hn. apply Z.eqb_neq in Hn.
  run. unfold Sub, ret, panic.
  destruct (committed (b s)); [discriminate | ].
  destruct (Debit _ _ _) as [st1 [cur [err | ]]]; cbn; [discriminate | ].
  rewrite Hst, Hn.
  repeat case_match; intros; simplify_eq; cbn;
    rewrite lookup_insert_eq; unfold Add; rewrite ?N.sub_0_l, N.add_0_r;
    reflexivity.
Qed.

End BudgetFacts.

(** * The budget on concrete inputs *)

Section BudgetRuns.
Import types accounts.
Local Open Scope N_scope.

(** C1, where the code departs from it: a budget of 10 with 3 spent is
    committed against an account holding 50 in memory with another budget
    open.  The debit succeeds (the ledger goes from 100 to 97), the unused
    remainder is 7, yet the release build returns [nil] with the balance
    still 50 and the debug build panics in [Sub]; in neither does the
    balance become 57. *)
Theorem Commit_leftover_not_returned :
  Commit false (demo_state 10 3 false 2) =
    Returned None
      {| b := {| accountID := 1; max := 0; spent := 0; committed := true |};
         am := {| store := {[ 1 := 97 ]};
                  balances := {[ 1 := {| balance := 50; openTxns := 1%Z |} ]} |} |}
  /\ Commit true (demo_state 10 3 false 2) =
       Panicked ErrNegativeCurrency
         {| b := {| accountID := 1; max := 0; spent := 0; committed := true |};
            am := {| store := {[ 1 := 97 ]};
                     balances := {[ 1 := {| balance := 50; openTxns := 2%Z |} ]} |} |}.
Proof. split; vm_compute; reflexivity. Qed.

(** C2 fails as stated: with [max = 10] and [spent = 3] the unspent delta
    is 7, and [Empty] returns 3. *)
Lemma Empty_unspent_delta_counterexample :
  committed (b (demo_state 10 3 false 2)) = false
  /\ returned_value (Empty (demo_state 10 3 false 2)) <> Some (10 - 3).
Proof. split; [reflexivity | vm_compute; discriminate]. Qed.

Lemma Empty_returns_old_spent_witness :
  committed (b (demo_state 10 3 false 2)) = false
  /\ Empty (demo_state 10 3 false 2) = Returned 3 (demo_state 10 10 false 2).
Proof.
  split; [reflexivity | ].
  apply (Empty_returns_old_spent (demo_state 10 3 false 2)). reflexivity.
Defined.

(** C3 fails as stated: on the budget a [Commit] leaves, [Spend] of 5
    returns an error and [Spend] of 0 returns [nil]; neither panics, in
    either build. *)
Lemma Spend_after_commit_counterexample :
  committed (b (demo_state 0 0 true 1)) = true
  /\ panics (Spend false 5 (demo_state 0 0 true 1)) = false
  /\ panics (Spend true 5 (demo_state 0 0 true 1)) = false
  /\ Spend false 0 (demo_state 0 0 true 1) = Returned None (demo_state 0 0 true 1)
  /\ Spend true 0 (demo_state 0 0 true 1) = Returned None (demo_state 0 0 true 1).
Proof. repeat split; vm_compute; reflexivity. Qed.

Lemma committed_budget_calls_witness :
  Refund false 5 (demo_state 0 0 true 1) =
    Panicked "budget already committed" (demo_state 0 0 true 1)
  /\ Empty (demo_state 0 0 true 1) =
       Panicked "budget already committed" (demo_state 0 0 true 1)
  /\ Commit false (demo_state 0 0 true 1) =
       Panicked "budget already committed" (demo_state 0 0 true 1)
  /\ panics (Spend false 5 (demo_state 0 0 true 1)) = false.
Proof.
  destruct (committed_budget_calls false (demo_state 0 0 true 1) 5)
    as (HRefund & HEmpty & HCommit & HSpend & _).
  - reflexivity.
  - unfold budget_inv. simpl. lia.
  - repeat split; assumption.
Defined.

Lemma Spend_insufficient_iff_witness :
  budget_inv (b (demo_state 10 3 false 2))
  /\ exists e, Spend true 8 (demo_state 10 3 false 2) =
                 Returned (Some e) (demo_state 10 3 false 2)
               /\ errorsIs e ErrInsufficientBudget = true.
Proof.
  split; [unfold budget_inv; simpl; lia | ].
  destruct (Spend_insufficient_iff true (demo_state 10 3 false 2) 8)
    as (Hfail & _).
  - unfold budget_inv. simpl. lia.
  - apply Hfail. simpl. lia.
Defined.

Lemma Rollback_restores_max_witness :
  Rollback (demo_state 10 3 false 2) =
    Returned None
      {| b := {| accountID := 1; max := 10; spent := 3; committed := false |};
         am := {| store := {[ 1 := 100 ]};
                  balances := {[ 1 := {| balance := 60; openTxns := 1%Z |} ]} |} |}.
Proof.
  destruct (Rollback_restores_max (demo_state 10 3 false 2)
              {| balance := 50; openTxns := 2%Z |}) as [Hrun _].
  - reflexivity.
  - vm_compute. reflexivity.
  - rewrite Hrun. vm_compute. reflexivity.
Defined.

Lemma Commit_debit_error_witness :
  exists e s',
    Commit false (demo_state 200 150 false 2) = Returned (Some e) s'
    /\ errorsIs e (errorsNew "insufficient funds") = true
    /\ b s' = b (demo_state 200 150 false 2)
    /\ balances (am s') = balances (am (demo_state 200 150 false 2)).
Proof.
  apply (Commit_debit_error false (demo_state 200 150 false 2)
           {[ 1 := 100 ]} 0 (errorsNew "insufficient funds")).
  - reflexivity.
  - vm_compute. reflexivity.
Defined.

Lemma Rollback_after_commit_noop_witness :
  Rollback (demo_state 0 0 true 1) = Returned None (demo_state 0 0 true 1)
  /\ Rollbacks 3 (demo_state 0 0 true 1) = Returned true (demo_state 0 0 true 1).
Proof.
  apply (Rollback_after_commit_noop (demo_state 0 0 true 1) 3). reflexivity.
Defined.

Lemma budget_inv_preserved_witness :
  budget_inv (b (demo_state 10 3 false 2))
  /\ budget_inv
       (b (final_state (call false (OpRefund 2) (demo_state 10 3 false 2)))).
Proof.
  assert (Hinv : budget_inv (b (demo_state 10 3 false 2)))
    by (unfold budget_inv; simpl; lia).
  split; [exact Hinv | ].
  apply (budget_inv_preserved false (demo_state 10 3 false 2) Hinv).
Defined.

Lemma Remaining_zero_after_Commit_witness :
  Commit false (demo_state 10 3 false 2) =
    Returned None (final_state (Commit false (demo_state 10 3 false 2)))
  /\ Remaining false
       (calls false [OpSpend 4; OpRollback; OpRemaining]
          (final_state (Commit false (demo_state 10 3 false 2)))) =
     Returned 0
       (calls false [OpSpend 4; OpRollback; OpRemaining]
          (final_state (Commit false (demo_state 10 3 false 2)))).
Proof.
  assert (Hrun : Commit false (demo_state 10 3 false 2) =
                 Returned None (final_state (Commit false (demo_state 10 3 false 2))))
    by (vm_compute; reflexivity).
  split; [exact Hrun | ].
  apply (Remaining_zero_after_Commit false (demo_state 10 3 false 2) _ _ Hrun).
Defined.

End BudgetRuns.

(** * Properties of contract updates *)

Section ContractFacts.
Import contracts.

Context {ContractID : Type} `{Countable ContractID}.
Context {Hash : Type}.

Local Abbreviation db := (gmap ContractID (list Hash)).

(** A callback that returns an error leaves the store as it was. *)
Lemma RunUpdate_abort (fn : Tx) (d w : db) (err : error) :
  fn d = (Some err, w) -> RunUpdate fn d = (Some err, d).
Proof. intros Hfn. unfold RunUpdate. rewrite Hfn. reflexivity. Qed.

(** A callback that returns [nil] has everything it did committed. *)
Lemma RunUpdate_commit (fn : Tx) (d w : db) :
  fn d = (None, w) -> RunUpdate fn d = (None, w).
Proof. intros Hfn. unfold RunUpdate. rewrite Hfn. reflexivity. Qed.

(** [SwapSectors] with an index at or beyond the length fails and leaves
    the working copy alone; so it does on a contract that is not there. *)
Lemma SwapSectors_out_of_range (id : ContractID) (i j : N) (w : db) :
  (N.of_nat (length (default [] (w !! id))) <= i
   \/ N.of_nat (length (default [] (w !! id))) <= j)%N ->
  exists err,
    SwapSectors id i j w = (Some err, w)
    /\ (is_Some (w !! id) -> err = ErrIndexOutOfRange).
Proof.
  intros Hrange. unfold SwapSectors.
  destruct (w !! id) as [l | ] eqn:Hl; cbn in Hrange.
  - exists ErrIndexOutOfRange. split; [ | reflexivity ].
    destruct (N.leb_spec (N.of_nat (length l)) i);
      destruct (N.leb_spec (N.of_nat (length l)) j);
      cbn; try reflexivity; lia.
  - exists ErrContractNotFound. split; [reflexivity | ].
    intros [x Hx]. discriminate.
Qed.

(** A batch stops at the first operation that fails. *)
Lemma batch_app (us vs : list update) :
  forall w : db,
    batch (us ++ vs) w =
      match batch us w with
      | (None, w') => batch vs w'
      | (Some err, w') => (Some err, w')
      end.
Proof.
  induction us as [ | u rest IH]; intros w; cbn [batch app].
  - reflexivity.
  - destruct (issue u w) as [[err | ] w']; [reflexivity | apply IH].
Qed.

(** C4: a [SwapSectors] whose index is at or beyond the length the list
    has when the call is issued makes the callback fail, [RunUpdate] returns
    the error, and the stored roots are what they were before, whatever
    valid operations the batch issued first and whatever it would have
    issued afterwards. *)
Theorem swap_out_of_range_aborts
    (d w : db) (before after : list update) (id : ContractID) (i j : N) :
  batch before d = (None, w) ->
  (N.of_nat (length (default [] (w !! id))) <= i
   \/ N.of_nat (length (default [] (w !! id))) <= j)%N ->
  exists err,
    SwapSectors id i j w = (Some err, w)
    /\ RunUpdate (batch (before ++ Swap id i j :: after)) d = (Some err, d)
    /\ (forall c offset limit,
          SectorRoots c offset limit
            (snd (RunUpdate (batch (before ++ Swap id i j :: after)) d)) =
          SectorRoots c offset limit d).
Proof.
  intros Hbefore Hrange.
  destruct (SwapSectors_out_of_range id i j w Hrange) as (err & Hswap & _).
  assert (Hrun : RunUpdate (batch (before ++ Swap id i j :: after)) d
                 = (Some err, d)).
  { apply (RunUpdate_abort _ d w err).
    rewrite batch_app, Hbefore. cbn [batch issue]. rewrite Hswap. reflexivity. }
  exists err. split; [exact Hswap | split; [exact Hrun | ] ].
  intros c offset limit. rewrite Hrun. reflexivity.
Qed.

End ContractFacts.

(** * The contract store on the test's inputs *)

Section ContractRuns.
Import contracts.
Local Open Scope N_scope.

(** The steps of [TestUpdateContractRoots]: ten roots appended and read
    back in order, positions 5 and 8 exchanged, the last three trimmed,
    arriving at [test_db]. *)
Example TestUpdateContractRoots_steps :
  SectorRoots 1 0 100
    (snd (RunUpdate (batch (map (Append 1) [0; 1; 2; 3; 4; 5; 6; 7; 8; 9]))
            {[ 1 := [] ]})) = [0; 1; 2; 3; 4; 5; 6; 7; 8; 9]
  /\ SectorRoots 1 0 100
       (snd (RunUpdate (SwapSectors 1 5 8)
               {[ 1 := [0; 1; 2; 3; 4; 5; 6; 7; 8; 9] ]})) =
     [0; 1; 2; 3; 4; 8; 6; 7; 5; 9]
  /\ snd (RunUpdate (TrimSectors 1 3)
            {[ 1 := [0; 1; 2; 3; 4; 8; 6; 7; 5; 9] ]}) = test_db.
Proof. repeat split; vm_compute; reflexivity. Qed.

Lemma swap_out_of_range_aborts_witness :
  batch [Append 1 7; Trim 1 1] test_db = (None, test_db)
  /\ exists err,
       SwapSectors 1 0 100 test_db = (Some err, test_db)
       /\ RunUpdate (batch ([Append 1 7; Trim 1 1] ++ Swap 1 0 100 :: [])) test_db
          = (Some err, test_db)
       /\ (forall c offset limit,
             SectorRoots c offset limit
               (snd (RunUpdate
                       (batch ([Append 1 7; Trim 1 1] ++ Swap 1 0 100 :: []))
                       test_db)) =
             SectorRoots c offset limit test_db).
Proof.
  assert (Hbefore : batch [Append 1 7; Trim 1 1] test_db = (None, test_db))
    by (vm_compute; reflexivity).
  split; [exact Hbefore | ].
  apply (swap_out_of_range_aborts test_db test_db [Append 1 7; Trim 1 1] []
           1 0 100 Hbefore).
  right. vm_compute. discriminate.
Defined.

End ContractRuns.

(** * Further properties of budgets *)

Section BudgetMore.
Import types accounts.

Context {AccountID : Type} `{Countable AccountID}.
Context {S : Type} `{!AccountStore (AccountID := AccountID) S}.

Local Abbreviation state := (@accounts.state AccountID _ _ S).

Ltac exec :=
  unfold call, Commit, Rollback, Spend, Refund, Empty, Remaining, store_Debit,
    bind, get, put, ret, panic in *; cbn [b am store balances max spent
    committed accountID set_b set_spent set_balances set_store fst snd] in *.

(** [Refund] on an uncommitted budget, as one equation. *)
Lemma Refund_eq (DEBUG : bool) (s : state) (amount : Currency) :
  committed (b s) = false ->
  Refund DEBUG amount s =
    if (spent (b s) <? amount)%N
    then Panicked "cannot refund more than spent" s
    else Returned tt (set_b (set_spent (spent (b s) - amount)%N (b s)) s).
Proof.
  intros Hc. exec. rewrite Hc, Cmp_gt.
  destruct (N.ltb_spec (spent (b s)) amount) as [Hlt | Hle]; [reflexivity | ].
  rewrite (Sub_le DEBUG _ _ s Hle). reflexivity.
Qed.

(** [Refund] on an uncommitted budget: it panics, changing nothing, exactly
    when the amount exceeds [spent]; otherwise it takes the amount off
    [spent] and touches nothing else. *)
Theorem Refund_over_spent_iff (DEBUG : bool) (s : state) (amount : Currency) :
  committed (b s) = false ->
  ((spent (b s) < amount)%N ->
     Refund DEBUG amount s = Panicked "cannot refund more than spent" s)
  /\ ((amount <= spent (b s))%N ->
        Refund DEBUG amount s =
          Returned tt (set_b (set_spent (spent (b s) - amount)%N (b s)) s)).
Proof.
  intros Hc. rewrite (Refund_eq DEBUG s amount Hc).
  split; intros Hcmp;
    destruct (N.ltb_spec (spent (b s)) amount); first [reflexivity | lia].
Qed.

(** A [Spend] that was accepted is undone exactly by a [Refund] of the same
    amount: the state is the one before the [Spend]. *)
Theorem Spend_then_Refund (DEBUG : bool) (s s' : state) (amount : Currency) :
  committed (b s) = false ->
  Spend DEBUG amount s = Returned None s' ->
  Refund DEBUG amount s' = Returned tt s.
Proof.
  intros Hc Hspend.
  assert (Hs' : s' = set_b (set_spent (spent (b s) + amount)%N (b s)) s).
  { revert Hspend. exec. unfold Sub, ret, panic, Add.
    repeat case_match; intros; simplify_eq; reflexivity. }
  subst s'. rewrite Refund_eq by exact Hc. cbn.
  destruct (N.ltb_spec (spent (b s) + amount) amount); [lia | ].
  destruct s as [[id mx sp c] m]. cbn. unfold set_b, set_spent. cbn.
  repeat f_equal. lia.
Qed.

(** No call on a budget changes which account it is on, nor the entry of
    any other account in the manager's table. *)
Theorem call_frame (DEBUG : bool) (o : op) (s : state) (id : AccountID) :
  id <> accountID (b s) ->
  accountID (b (final_state (call DEBUG o s))) = accountID (b s)
  /\ balances (am (final_state (call DEBUG o s))) !! id = balances (am s) !! id.
Proof.
  intros Hid. destruct o as [ | | amount | amount | | ];
    exec; unfold Sub, ret, panic;
    repeat (case_match; simplify_eq; cbn);
    rewrite ?lookup_delete_ne, ?lookup_insert_ne by congruence; auto.
Qed.

(** Only [Commit] reaches the store; [Remaining], [Empty], [Refund] and
    [Spend] leave the whole manager alone; [Rollback] leaves the budget as
    it is, without even flagging it. *)
Theorem call_footprint (DEBUG : bool) (o : op) (s : state) :
  o <> OpCommit ->
  store (am (final_state (call DEBUG o s))) = store (am s)
  /\ (o <> OpRollback -> am (final_state (call DEBUG o s)) = am s)
  /\ (o = OpRollback -> b (final_state (call DEBUG o s)) = b s).
Proof.
  intros Ho. destruct o as [ | | amount | amount | | ]; try congruence;
    (split; [ | split; intros Ho'; try congruence ]);
    exec; unfold Sub, ret, panic;
    repeat (case_match; simplify_eq; cbn); reflexivity.
Qed.

(** [Rollback] removes the account's entry exactly when the count of open
    transactions was 1: the test is [openTxns == 0] after the decrement, so
    a count of zero or below keeps the entry, with a negative count. *)
Theorem Rollback_evicts_iff (s : state) (st : accountState) :
  committed (b s) = false ->
  balances (am s) !! accountID (b s) = Some st ->
  - 2 ^ 63 < openTxns st <= 2 ^ 63 ->
  (balances (am (final_state (Rollback s))) !! accountID (b s) = None
   <-> openTxns st = 1)
  /\ (openTxns st <> 1 ->
      balances (am (final_state (Rollback s))) !! accountID (b s) =
        Some {| balance := (balance st + max (b s))%N;
                openTxns := openTxns st - 1 |}).
Proof.
  intros Hc Hst Hrange.
  pose proof (int_dec_in_range (openTxns st) Hrange) as Hdec.
  exec. rewrite Hc, Hst, Hdec.
  destruct (Z.eqb_spec (openTxns st - 1) 0) as [Hz | Hnz]; cbn.
  - rewrite lookup_delete_eq. split; [ split; [lia | reflexivity] | lia ].
  - rewrite lookup_insert_eq. split; [ split; [discriminate | lia] | reflexivity ].
Qed.

(** [Rollback] does not mark the budget: called twice on an uncommitted
    budget it gives [max] back twice and takes two off the count. *)
Theorem Rollback_twice (s : state) (st : accountState) :
  committed (b s) = false ->
  balances (am s) !! accountID (b s) = Some st ->
  2 < openTxns st <= 2 ^ 63 ->
  (Rollback ;;; Rollback) s =
    Returned None
      (set_balances
         (<[accountID (b s) :=
              {| balance := (balance st + max (b s) + max (b s))%N;
                 openTxns := openTxns st - 2 |}]> (balances (am s)))
         s).
Proof.
  intros Hc Hst Hrange.
  assert (Hd1 : int_dec (openTxns st) = openTxns st - 1)
    by (apply int_dec_in_range; lia).
  assert (Hd2 : int_dec (openTxns st - 1) = openTxns st - 2)
    by (rewrite int_dec_in_range; lia).
  exec. rewrite Hc, Hst, Hd1.
  destruct (Z.eqb_spec (openTxns st - 1) 0); [lia | ]. cbn.
  rewrite Hc, lookup_insert_eq. cbn. rewrite Hd2.
  destruct (Z.eqb_spec (openTxns st - 2) 0); [lia | ]. cbn.
  unfold set_balances; cbn. rewrite insert_insert_eq. reflexivity.
Qed.

(** [Commit] of the last open budget of an account: the debit is made, the
    budget is zeroed and flagged and the entry is removed, in either build
    and whatever was left of the reservation. *)
Theorem Commit_evicts (DEBUG : bool) (s : state) (st : accountState)
    (st' : S) (cur : Currency) :
  committed (b s) = false ->
  budget_inv (b s) ->
  Debit (accountID (b s)) (spent (b s)) (store (am s)) = (st', (cur, None)) ->
  balances (am s) !! accountID (b s) = Some st ->
  int_dec (openTxns st) = 0 ->
  Commit DEBUG s =
    Returned None
      {| b := zeroed (b s);
         am := {| store := st';
                  balances := delete (accountID (b s)) (balances (am s)) |} |}.
Proof.
  intros Hc Hinv Hdebit Hst Hz. exec. rewrite Hc, Hdebit. cbn.
  rewrite (Sub_le DEBUG _ _ _ Hinv). cbn. rewrite Hst, Hz. reflexivity.
Qed.

(** An account missing from the table is fatal to both: [Rollback] panics
    with nothing changed, [Commit] panics only after the debit has been made
    and the budget zeroed and flagged. *)
Theorem missing_account_panics (DEBUG : bool) (s : state)
    (st' : S) (cur : Currency) :
  committed (b s) = false ->
  budget_inv (b s) ->
  balances (am s) !! accountID (b s) = None ->
  Debit (accountID (b s)) (spent (b s)) (store (am s)) = (st', (cur, None)) ->
  Rollback s = Panicked "account missing from memory" s
  /\ Commit DEBUG s =
       Panicked "account missing from memory"
         {| b := zeroed (b s);
            am := {| store := st'; balances := balances (am s) |} |}.
Proof.
  intros Hc Hinv Hst Hdebit. split; exec; rewrite Hc.
  - rewrite Hst. reflexivity.
  - rewrite Hdebit. cbn. rewrite (Sub_le DEBUG _ _ _ Hinv). cbn.
    rewrite Hst. reflexivity.
Qed.

(** [Commit] on an uncommitted budget calls [Debit] once, for the budget's
    account and the amount spent: however the call ends, the store is the
    one that [Debit] left. *)
Theorem Commit_debits_spent (DEBUG : bool) (s : state) :
  committed (b s) = false ->
  store (am (final_state (Commit DEBUG s))) =
    fst (Debit (accountID (b s)) (spent (b s)) (store (am s))).
Proof.
  intros Hc. exec. unfold Sub, ret, panic. rewrite Hc.
  destruct (Debit _ _ _) as [st1 [cur [err | ]]]; cbn; [reflexivity | ].
  repeat (case_match; simplify_eq; cbn); reflexivity.
Qed.

(** A [Commit] whose debit failed leaves the budget open: a [Rollback]
    after it ends as it would have without the attempt. *)
Theorem Rollback_after_failed_Commit (DEBUG : bool) (s : state)
    (st' : S) (cur : Currency) (err : error) :
  committed (b s) = false ->
  Debit (accountID (b s)) (spent (b s)) (store (am s)) = (st', (cur, Some err)) ->
  let s1 := final_state (Commit DEBUG s) in
  returned_value (Rollback s1) = returned_value (Rollback s)
  /\ panics (Rollback s1) = panics (Rollback s)
  /\ b (final_state (Rollback s1)) = b (final_state (Rollback s))
  /\ balances (am (final_state (Rollback s1))) =
       balances (am (final_state (Rollback s))).
Proof.
  intros Hc Hdebit. exec. rewrite Hc, Hdebit. cbn. rewrite Hc.
  repeat (case_match; simplify_eq; cbn); auto.
Qed.

(** After [Empty] nothing remains: [Remaining] is zero, every positive
    [Spend] is refused, and a second [Empty] returns [max] and changes
    nothing more. *)
Theorem Empty_leaves_nothing (DEBUG : bool) (s : state) :
  committed (b s) = false ->
  let s1 := final_state (Empty s) in
  Remaining DEBUG s1 = Returned 0%N s1
  /\ (forall amount, (0 < amount)%N ->
        exists e, Spend DEBUG amount s1 = Returned (Some e) s1
                  /\ errorsIs e ErrInsufficientBudget = true)
  /\ Empty s1 = Returned (max (b s)) s1.
Proof.
  intros Hc. cbn zeta.
  assert (Hs1 : final_state (Empty s) = set_b (set_spent (max (b s)) (b s)) s)
    by (exec; rewrite Hc; reflexivity).
  rewrite Hs1. set (s1 := set_b (set_spent (max (b s)) (b s)) s).
  assert (Hinv : budget_inv (b s1)) by (unfold budget_inv; cbn; lia).
  split; [ | split ].
  - rewrite (Remaining_eq DEBUG s1 Hinv). cbn. rewrite N.sub_diag. reflexivity.
  - intros amount Hpos. rewrite (Spend_eq DEBUG s1 amount Hinv). cbn.
    destruct (N.ltb_spec (max (b s)) (max (b s) + amount)); [ | lia ].
    eexists. split; [reflexivity | ]. apply errorsIs_wrap, errorsIs_refl.
  - subst s1. exec. rewrite Hc. reflexivity.
Qed.

(** What [Commit] does with the leftover when other budgets stay open: it
    adds [b.max.Sub(rem)] with [b.max] already zero.  The release build
    returns [nil] with the balance as it was; the debug build does the same
    when nothing is left over and panics, after the debit, when something
    is. *)
Theorem Commit_with_others_open (s : state) (st : accountState)
    (st' : S) (cur : Currency) :
  committed (b s) = false ->
  budget_inv (b s) ->
  Debit (accountID (b s)) (spent (b s)) (store (am s)) = (st', (cur, None)) ->
  balances (am s) !! accountID (b s) = Some st ->
  int_dec (openTxns st) <> 0 ->
  let kept :=
    {| b := zeroed (b s);
       am := {| store := st';
                balances :=
                  <[accountID (b s) :=
                      {| balance := balance st;
                         openTxns := int_dec (openTxns st) |}]>
                    (balances (am s)) |} |} in
  Commit false s = Returned None kept
  /\ (spent (b s) = max (b s) -> Commit true s = Returned None kept)
  /\ ((spent (b s) < max (b s))%N ->
      Commit true s =
        Panicked ErrNegativeCurrency
          {| b := zeroed (b s);
             am := {| store := st'; balances := balances (am s) |} |}).
Proof.
  intros Hc Hinv Hdebit Hst Hn. apply Z.eqb_neq in Hn. cbn zeta.
  split; [ | split ]; [ | intros Heq | intros Hlt ];
    exec; rewrite Hc, Hdebit; cbn;
    rewrite (Sub_le _ _ _ _ Hinv); cbn; rewrite Hst, Hn;
    unfold Sub, ret, panic, zeroed, Add, ZeroCurrency; rewrite Cmp_lt; cbn.
  - destruct (N.ltb_spec 0 (max (b s) - spent (b s)));
      rewrite N.add_0_r; reflexivity.
  - rewrite Heq, N.sub_diag. cbn. rewrite N.add_0_r. reflexivity.
  - destruct (N.ltb_spec 0 (max (b s) - spent (b s))); [reflexivity | lia].
Qed.

End BudgetMore.

(** * Properties of the test's comparison of roots *)

Section RootsEqualFacts.
Import sqlite_test.

Context {Hash : Type} `{EqDecision Hash}.
Local Open Scope nat_scope.

(** The loop from [i] on, over lists that are long enough: it ends in
    [nil] when the lists agree on the [n] indices from [i], and otherwise in
    the error of the first index where they differ. *)
Lemma rootsEqual_from_spec (n : nat) :
  forall (i : nat) (a c : list Hash),
    i + n <= length a -> i + n <= length c ->
    (rootsEqual_from n i a c = Nil
     /\ forall k, i <= k < i + n -> a !! k = c !! k)
    \/ (exists k x y,
          rootsEqual_from n i a c = Err (RootMismatch k x y)
          /\ i <= k < i + n
          /\ a !! k = Some x /\ c !! k = Some y /\ x <> y
          /\ forall k', i <= k' < k -> a !! k' = c !! k').
Proof.
  induction n as [ | n IH]; intros i a c Ha Hc; cbn [rootsEqual_from].
  - left. split; [reflexivity | intros k Hk; lia].
  - destruct (lookup_lt_is_Some_2 a i) as [x Hx]; [lia | ].
    destruct (lookup_lt_is_Some_2 c i) as [y Hy]; [lia | ].
    rewrite Hx, Hy. destruct (decide (x = y)) as [-> | Hne].
    + destruct (IH (Datatypes.S i) a c) as [[Hnil Hagree] | Hdiff]; [lia | lia | | ].
      * left. split; [exact Hnil | ]. intros k Hk.
        destruct (decide (k = i)) as [-> | Hki]; [congruence | apply Hagree; lia].
      * destruct Hdiff as (k & x' & y' & Hrun & Hk & Hak & Hck & Hne & Hbefore).
        right. exists k, x', y'. repeat split; try assumption; try lia.
        intros k' Hk'.
        destruct (decide (k' = i)) as [-> | Hki]; [congruence | apply Hbefore; lia].
    + right. exists i, x, y. repeat split; try assumption; lia.
Qed.

(** [rootsEqual] returns [nil] exactly on equal lists, and never runs
    into an index out of range. *)
Theorem rootsEqual_nil_iff (a c : list Hash) :
  (rootsEqual a c = Nil <-> a = c)
  /\ rootsEqual a c <> IndexOutOfRange.
Proof.
  unfold rootsEqual. destruct (decide (length a = length c)) as [Hlen | Hlen].
  - destruct (rootsEqual_from_spec (length a) 0 a c) as [[Hnil Hagree] | Hdiff];
      [lia | lia | | ].
    + rewrite Hnil. split; [ | discriminate ]. split; [ | reflexivity ].
      intros _. apply list_eq. intros k.
      destruct (decide (k < length a)) as [Hk | Hk]; [apply Hagree; lia | ].
      rewrite !lookup_ge_None_2 by lia. reflexivity.
    + destruct Hdiff as (k & x & y & Hrun & Hk & Hak & Hck & Hne & _).
      rewrite Hrun. split; [ | discriminate ]. split; [discriminate | ].
      intros ->. congruence.
  - split; [ | discriminate ]. split; [discriminate | ].
    intros ->. congruence.
Qed.

(** What [rootsEqual] reports: a length mismatch exactly when the lengths
    differ, and otherwise the first index at which the lists differ, with
    the root of the first list as expected and that of the second as got. *)
Theorem rootsEqual_reports_first (a c : list Hash) :
  (rootsEqual a c = Err LengthMismatch <-> length a <> length c)
  /\ (forall k x y,
        rootsEqual a c = Err (RootMismatch k x y) ->
        length a = length c
        /\ a !! k = Some x /\ c !! k = Some y /\ x <> y
        /\ forall k', k' < k -> a !! k' = c !! k').
Proof.
  unfold rootsEqual. destruct (decide (length a = length c)) as [Hlen | Hlen].
  - destruct (rootsEqual_from_spec (length a) 0 a c) as [[Hnil _] | Hdiff];
      [lia | lia | | ].
    + rewrite Hnil. split; [split; [discriminate | congruence] | discriminate].
    + destruct Hdiff as (k & x & y & Hrun & Hk & Hak & Hck & Hne & Hbefore).
      rewrite Hrun. split; [split; [discriminate | congruence] | ].
      intros k0 x0 y0 Heq. simplify_eq.
      repeat split; try assumption. intros k' Hk'. apply Hbefore. lia.
  - split; [split; [intros _; exact Hlen | reflexivity] | discriminate].
Qed.

End RootsEqualFacts.

(** * Properties of the host announcement *)

Section SettingsFacts.
Import settings.

Context {Bytes Attestation PrivateKey PublicKey BlockID Hash256 : Type}.
Context {Body V2Body : Type}.
Context {IP : Type} `{!NetLib IP}.
Context {W : Type}
  `{!Collaborators (Bytes := Bytes) (Attestation := Attestation)
      (PrivateKey := PrivateKey) (PublicKey := PublicKey)
      (BlockID := BlockID) (Hash256 := Hash256)
      (Body := Body) (V2Body := V2Body) W}.
Variable announcementTxnSize : N.

Local Abbreviation run := (@settings.run Bytes Attestation BlockID Hash256 Body V2Body W).
Local Abbreviation ConfigManager := (@settings.ConfigManager PrivateKey).
Local Open Scope nat_scope.

(** Runs [Announce] through every answer of its collaborators. *)
Ltac announce :=
  unfold Announce, act, act_, Mul64, bind, get, put, ret, panic;
  cbn [world trace];
  repeat (case_match; simplify_eq; cbn [world trace app]).

(** What [validateNetAddress] lets through: an address that splits into a
    host, neither empty nor [localhost], and a port that parses to a number
    from 1 to 65535, the host being either no IP address at all or one that
    is global unicast and neither loopback nor private. *)
Theorem validateNetAddress_accepts_iff (netaddress : string) :
  validateNetAddress netaddress = None <->
  exists host port n,
    SplitHostPort netaddress = inl (host, port)
    /\ host <> EmptyString /\ host <> "localhost"%string
    /\ Atoi port = inl n /\ (1 <= n <= 65535)%Z
    /\ match ParseIP host with
       | None => True
       | Some ip =>
           IsLoopback ip = false /\ IsPrivate ip = false
           /\ IsGlobalUnicast ip = true
       end.
Proof.
  unfold validateNetAddress. split.
  - destruct (SplitHostPort netaddress) as [[host port] | e] eqn:Hsplit;
      [ | discriminate ].
    destruct (decide (host = EmptyString)) as [ | Hne]; [discriminate | ].
    destruct (decide (host = "localhost"%string)) as [ | Hnl]; [discriminate | ].
    destruct (Atoi port) as [n | e] eqn:Hport; [ | discriminate ].
    destruct (Z.ltb_spec n 1); [discriminate | ].
    destruct (Z.ltb_spec 65535 n); [discriminate | ]. cbn.
    intros Hip. exists host, port, n.
    split; [first [exact Hsplit | reflexivity] | ].
    split; [exact Hne | ]. split; [exact Hnl | ].
    split; [first [exact Hport | reflexivity] | ]. split; [lia | ].
    destruct (ParseIP host) as [ip | ]; [ | exact I ].
    destruct (IsLoopback ip), (IsPrivate ip), (IsGlobalUnicast ip);
      try discriminate; auto.
  - intros (host & port & n & -> & Hne & Hnl & Hport & Hn & Hip).
    destruct (decide (host = EmptyString)) as [ | _]; [contradiction | ].
    destruct (decide (host = "localhost"%string)) as [ | _]; [contradiction | ].
    rewrite Hport.
    destruct (Z.ltb_spec n 1); [lia | ].
    destruct (Z.ltb_spec 65535 n); [lia | ]. cbn.
    destruct (ParseIP host) as [ip | ]; [ | reflexivity ].
    destruct Hip as (-> & -> & ->). reflexivity.
Qed.

(** With validation on, an address that does not validate stops
    [Announce] before anything is read or called: the error comes back
    wrapped, and the world and the trace are untouched. *)
Theorem Announce_invalid_address (m : ConfigManager) (r : run) (e : err) :
  validateNetAddressFlag m = true ->
  validateNetAddress (NetAddress m) = Some e ->
  Announce announcementTxnSize m r =
    Returned
      (Some (errWrap "failed to validate net address %q: %w" [NetAddress m] e))
      r.
Proof. intros Hflag Hval. unfold Announce. rewrite Hflag, Hval. reflexivity. Qed.

(** [Announce] broadcasts once when it returns [nil] and not at all when
    it returns an error or panics. *)
Theorem Announce_broadcasts_iff_nil (m : ConfigManager) (w : W) :
  count is_broadcast
    (trace (final_state
              (Announce announcementTxnSize m {| world := w; trace := [] |}))) =
  if announced (Announce announcementTxnSize m {| world := w; trace := [] |})
  then 1 else 0.
Proof. announce; reflexivity. Qed.

(** Whatever the wallet signed is afterwards either broadcast or has its
    inputs released, never both and never neither; nothing is signed that
    was not funded, and funding happens at most once. *)
Theorem Announce_signed_is_settled (m : ConfigManager) (w : W) :
  let tr := trace (final_state
                     (Announce announcementTxnSize m
                        {| world := w; trace := [] |})) in
  count is_sign tr = count is_release tr + count is_broadcast tr
  /\ count is_sign tr <= count is_fund tr
  /\ count is_fund tr <= 1.
Proof. cbn zeta. announce; cbn; lia. Qed.

(** The inputs released are those of the transaction the wallet signed:
    one version 1 transaction or one version 2 transaction, as signed. *)
Theorem Announce_releases_signed (m : ConfigManager) (w : W)
    (txns : list Transaction) (v2txns : list V2Transaction) :
  In (ReleaseInputsCall txns v2txns)
     (trace (final_state
               (Announce announcementTxnSize m {| world := w; trace := [] |}))) ->
  (exists t0 toSign t,
      txns = [t] /\ v2txns = []
      /\ In (SignTransactionCall t0 toSign t)
            (trace (final_state
                      (Announce announcementTxnSize m
                         {| world := w; trace := [] |}))))
  \/ (exists t0 toSign t,
        txns = [] /\ v2txns = [t]
        /\ In (SignV2InputsCall t0 toSign t)
              (trace (final_state
                        (Announce announcementTxnSize m
                           {| world := w; trace := [] |})))).
Proof.
  announce; cbn; intros Hin;
    repeat (destruct Hin as [Hin | Hin]; [try discriminate | ]);
    try contradiction; simplify_eq.
  all: first [ solve [left; do 3 eexists; repeat split; cbn; eauto 10]
             | solve [right; do 3 eexists; repeat split; cbn; eauto 10] ].
Qed.


(** Which announcement is made is decided by the tip alone: below the
    height at which version 2 is allowed every call is a version 1 call, and
    from that height on every call is a version 2 call. *)
Theorem Announce_version_by_height (m : ConfigManager) (w : W) :
  let tr := trace (final_state
                     (Announce announcementTxnSize m
                        {| world := w; trace := [] |})) in
  ((Height (Index (TipState w)) < HardforkV2_AllowHeight (TipState w))%N ->
     Forall (fun e => is_v2 e = false) tr)
  /\ ((HardforkV2_AllowHeight (TipState w) <= Height (Index (TipState w)))%N ->
        Forall (fun e => is_v2 e = true) tr).
Proof.
  cbn zeta. split; intros Hh; announce; cbn;
    repeat match goal with
      | Hlt : (_ <? _)%N = true |- _ => apply N.ltb_lt in Hlt
      | Hlt : (_ <? _)%N = false |- _ => apply N.ltb_ge in Hlt
      end; try lia;
    repeat constructor.
Qed.

(** What is broadcast is the set the pool has just accepted.  A version 1
    set ends in the transaction the wallet signed; a version 2 set is the
    one the chain manager built, and it is broadcast at the index of the tip
    read at the start, whatever basis the set was given. *)
Theorem Announce_broadcasts_pool_set (m : ConfigManager) (w : W) :
  let tr := trace (final_state
                     (Announce announcementTxnSize m
                        {| world := w; trace := [] |})) in
  (forall txnset,
      In (BroadcastTransactionSetCall txnset) tr ->
      In (AddPoolTransactionsCall txnset) tr
      /\ exists t0 toSign t,
           In (SignTransactionCall t0 toSign t) tr /\ last txnset = Some t)
  /\ (forall index txnset,
        In (BroadcastV2TransactionSetCall index txnset) tr ->
        index = Index (TipState w)
        /\ exists basis, In (AddV2PoolTransactionsCall basis txnset) tr).
Proof.
  cbn zeta. split.
  - intros txnset. announce; cbn; intros Hin;
      repeat (destruct Hin as [Hin | Hin]; [try discriminate | ]);
      try contradiction; simplify_eq;
      (split;
       [ auto 10
       | do 3 eexists; split; [right; left; reflexivity | apply last_snoc] ]).
  - intros index txnset. announce; cbn; intros Hin;
      repeat (destruct Hin as [Hin | Hin]; [try discriminate | ]);
      try contradiction; simplify_eq;
      (split; [reflexivity | eexists; auto 10]).
Qed.

End SettingsFacts.

(** * The further properties on concrete runs *)

Section BudgetMoreRuns.
Import types accounts.
Local Open Scope N_scope.

Lemma Refund_over_spent_iff_witness :
  committed (b (demo_state 10 3 false 2)) = false
  /\ Refund false 5 (demo_state 10 3 false 2) =
       Panicked "cannot refund more than spent" (demo_state 10 3 false 2)
  /\ Refund false 2 (demo_state 10 3 false 2) =
       Returned tt (demo_state 10 1 false 2).
Proof.
  split; [reflexivity | ].
  destruct (Refund_over_spent_iff false (demo_state 10 3 false 2) 5)
    as [Hpanic _]; [reflexivity | ].
  destruct (Refund_over_spent_iff false (demo_state 10 3 false 2) 2)
    as [_ Hok]; [reflexivity | ].
  split; [apply Hpanic; simpl; lia | ].
  etransitivity; [apply Hok; simpl; lia | reflexivity].
Defined.

Lemma Spend_then_Refund_witness :
  committed (b (demo_state 10 3 false 2)) = false
  /\ Spend false 4 (demo_state 10 3 false 2) =
       Returned None (demo_state 10 7 false 2)
  /\ Refund false 4 (demo_state 10 7 false 2) =
       Returned tt (demo_state 10 3 false 2).
Proof.
  split; [reflexivity | ]. split; [vm_compute; reflexivity | ].
  apply (Spend_then_Refund false (demo_state 10 3 false 2)
           (demo_state 10 7 false 2) 4).
  - reflexivity.
  - vm_compute. reflexivity.
Defined.

Lemma call_frame_witness :
  2 <> accountID (b (demo_state 10 3 false 2))
  /\ accountID (b (final_state (call false OpCommit (demo_state 10 3 false 2)))) =
       accountID (b (demo_state 10 3 false 2))
  /\ balances (am (final_state (call false OpCommit (demo_state 10 3 false 2))))
       !! 2 =
     balances (am (demo_state 10 3 false 2)) !! 2.
Proof.
  assert (Hid : 2 <> accountID (b (demo_state 10 3 false 2)))
    by (simpl; lia).
  split; [exact Hid | ].
  apply (call_frame false OpCommit (demo_state 10 3 false 2) 2 Hid).
Defined.

Lemma call_footprint_witness :
  OpSpend 4 <> OpCommit
  /\ store (am (final_state (call false (OpSpend 4) (demo_state 10 3 false 2)))) =
       store (am (demo_state 10 3 false 2))
  /\ am (final_state (call false (OpSpend 4) (demo_state 10 3 false 2))) =
       am (demo_state 10 3 false 2).
Proof.
  assert (Ho : OpSpend 4 <> OpCommit) by discriminate.
  split; [exact Ho | ].
  destruct (call_footprint false (OpSpend 4) (demo_state 10 3 false 2) Ho)
    as (Hstore & Ham & _).
  split; [exact Hstore | apply Ham; discriminate].
Defined.

Lemma Rollback_evicts_iff_witness :
  balances (am (demo_state 10 3 false 1)) !! 1 =
    Some {| balance := 50; openTxns := 1%Z |}
  /\ balances (am (final_state (Rollback (demo_state 10 3 false 1)))) !! 1 = None.
Proof.
  split; [vm_compute; reflexivity | ].
  destruct (Rollback_evicts_iff (demo_state 10 3 false 1)
              {| balance := 50; openTxns := 1%Z |}) as [[_ Hevict] _].
  - reflexivity.
  - vm_compute. reflexivity.
  - simpl. lia.
  - apply Hevict. reflexivity.
Defined.

Lemma Rollback_twice_witness :
  (Rollback ;;; Rollback) (demo_state 10 3 false 5) =
    Returned None
      {| b := {| accountID := 1; max := 10; spent := 3; committed := false |};
         am := {| store := {[ 1 := 100 ]};
                  balances := {[ 1 := {| balance := 70; openTxns := 3%Z |} ]} |} |}.
Proof.
  etransitivity.
  - apply (Rollback_twice (demo_state 10 3 false 5)
             {| balance := 50; openTxns := 5%Z |}).
    + reflexivity.
    + vm_compute. reflexivity.
    + simpl. lia.
  - vm_compute. reflexivity.
Defined.

Lemma Commit_evicts_witness :
  Commit true (demo_state 10 3 false 1) =
    Returned None
      {| b := {| accountID := 1; max := 0; spent := 0; committed := true |};
         am := {| store := {[ 1 := 97 ]}; balances := ∅ |} |}.
Proof.
  etransitivity.
  - apply (Commit_evicts true (demo_state 10 3 false 1)
             {| balance := 50; openTxns := 1%Z |} {[ 1 := 97 ]} 97).
    + reflexivity.
    + unfold budget_inv. simpl. lia.
    + vm_compute. reflexivity.
    + vm_compute. reflexivity.
    + reflexivity.
  - vm_compute. reflexivity.
Defined.

Lemma missing_account_panics_witness :
  Rollback orphan_state = Panicked "account missing from memory" orphan_state
  /\ Commit false orphan_state =
       Panicked "account missing from memory"
         {| b := zeroed (b orphan_state);
            am := {| store := {[ 1 := 97 ]};
                     balances := balances (am orphan_state) |} |}.
Proof.
  apply (missing_account_panics false orphan_state {[ 1 := 97 ]} 97).
  - reflexivity.
  - unfold budget_inv. simpl. lia.
  - reflexivity.
  - vm_compute. reflexivity.
Defined.

Lemma Commit_debits_spent_witness :
  store (am (final_state (Commit false (demo_state 10 3 false 2)))) =
    {[ 1 := 97 ]}.
Proof.
  etransitivity.
  - apply (Commit_debits_spent false (demo_state 10 3 false 2)). reflexivity.
  - vm_compute. reflexivity.
Defined.

Lemma Rollback_after_failed_Commit_witness :
  Debit 1 150 ({[ 1 := 100 ]} : gmap N Currency) =
    ({[ 1 := 100 ]}, (0, Some (errorsNew "insufficient funds")))
  /\ returned_value
       (Rollback (final_state (Commit false (demo_state 200 150 false 2)))) =
     returned_value (Rollback (demo_state 200 150 false 2))
  /\ balances
       (am (final_state
              (Rollback (final_state (Commit false (demo_state 200 150 false 2)))))) =
     balances (am (final_state (Rollback (demo_state 200 150 false 2)))).
Proof.
  split; [vm_compute; reflexivity | ].
  destruct (Rollback_after_failed_Commit false (demo_state 200 150 false 2)
              {[ 1 := 100 ]} 0 (errorsNew "insufficient funds"))
    as (Hret & _ & _ & Hbal).
  - reflexivity.
  - vm_compute. reflexivity.
  - split; [exact Hret | exact Hbal].
Defined.

Lemma Empty_leaves_nothing_witness :
  Remaining false (final_state (Empty (demo_state 10 3 false 2))) =
    Returned 0 (final_state (Empty (demo_state 10 3 false 2)))
  /\ Empty (final_state (Empty (demo_state 10 3 false 2))) =
       Returned 10 (final_state (Empty (demo_state 10 3 false 2))).
Proof.
  destruct (Empty_leaves_nothing false (demo_state 10 3 false 2))
    as (Hrem & _ & Hagain).
  - reflexivity.
  - split; [exact Hrem | exact Hagain].
Defined.

Lemma Commit_with_others_open_witness :
  Commit false (demo_state 20 5 false 3) =
    Returned None
      {| b := {| accountID := 1; max := 0; spent := 0; committed := true |};
         am := {| store := {[ 1 := 95 ]};
                  balances := {[ 1 := {| balance := 50; openTxns := 2%Z |} ]} |} |}
  /\ Commit true (demo_state 20 5 false 3) =
       Panicked ErrNegativeCurrency
         {| b := {| accountID := 1; max := 0; spent := 0; committed := true |};
            am := {| store := {[ 1 := 95 ]};
                     balances := {[ 1 := {| balance := 50; openTxns := 3%Z |} ]} |} |}.
Proof.
  destruct (Commit_with_others_open (demo_state 20 5 false 3)
              {| balance := 50; openTxns := 3%Z |} {[ 1 := 95 ]} 95)
    as (Hrelease & _ & Hdebug).
  - reflexivity.
  - unfold budget_inv. simpl. lia.
  - vm_compute. reflexivity.
  - vm_compute. reflexivity.
  - vm_compute. discriminate.
  - split.
    + etransitivity; [exact Hrelease | vm_compute; reflexivity].
    + etransitivity; [apply Hdebug; simpl; lia | vm_compute; reflexivity].
Defined.

End BudgetMoreRuns.

Section SettingsRuns.
Import settings.

Lemma Announce_invalid_address_witness :
  validateNetAddress "localhost:9982" =
    Some (errNew "net address cannot be localhost")
  /\ Announce 1000 (demo_manager "localhost:9982") (demo_run 5 false) =
       Returned
         (Some (errWrap "failed to validate net address %q: %w"
                  ["localhost:9982"]
                  (errNew "net address cannot be localhost")))
         (demo_run 5 false).
Proof.
  split; [vm_compute; reflexivity | ].
  apply (Announce_invalid_address 1000 (demo_manager "localhost:9982")
           (demo_run 5 false) (errNew "net address cannot be localhost")).
  - reflexivity.
  - vm_compute. reflexivity.
Defined.

Lemma Announce_releases_signed_witness :
  In (ReleaseInputsCall [demo_txn] [])
     (trace (final_state
               (Announce 1000 (demo_manager "foo.bar:1234") (demo_run 5 true))))
  /\ exists t0 toSign,
       In (SignTransactionCall t0 toSign demo_txn)
          (trace (final_state
                    (Announce 1000 (demo_manager "foo.bar:1234")
                       (demo_run 5 true)))).
Proof.
  assert (Hin : In (ReleaseInputsCall [demo_txn] [])
                  (trace (final_state
                            (Announce 1000 (demo_manager "foo.bar:1234")
                               (demo_run 5 true)))))
    by (vm_compute; auto 10).
  split; [exact Hin | ].
  destruct (Announce_releases_signed 1000 (demo_manager "foo.bar:1234")
              {| tip := 5; poolFull := true |} [demo_txn] [] Hin)
    as [(t0 & toSign & t & Ht & _ & Hsign) | (t0 & toSign & t & Ht & _)].
  - exists t0, toSign. injection Ht as <-. exact Hsign.
  - discriminate Ht.
Defined.

End SettingsRuns.
